(** * The phone-number authentication dialog of the playground

    A shallow embedding of [web/src/components/auth.tsx]: the status
    indicator [Auth] with its [onLogout] handler, and the modal form
    [AuthDialog] with its two [useEffect] hooks and its [onSubmit] handler.

    Event handlers are computations in a small state-and-exception monad over
    the [World] the two components live in.  What the network answers to the
    single [fetch] of a submission is an input of the handler.  React's
    effects are run by [commitEffects] after each handler, on the
    dependencies that changed. *)

From Stdlib Require Import String Ascii List ZArith Bool Arith Lia.
Import ListNotations.
Local Open Scope string_scope.
Local Open Scope list_scope.

(** ** Strings as the components use them *)

(** [text.slice(0, n)]. *)
Definition slice_start (text : string) (n : nat) : string :=
  substring 0 n text.

(** [text.slice(-n)]. *)
Definition slice_end (text : string) (n : nat) : string :=
  substring (String.length text - n) n text.

Definition ellipsis : string := "...".

(** Modelled from the spec: [ellipsisMiddle] of [@/lib/utils] is not among the
    sources.  The spec describes the masked preview as "first N and last N
    characters visible, middle elided", "with an ellipsis between". *)
Definition ellipsisMiddle (text : string) (startLength endLength : nat) : string :=
  (slice_start text startLength ++ ellipsis ++ slice_end text endLength)%string.

(** JavaScript truthiness of a [string | null] value. *)
Definition truthy (v : option string) : bool :=
  match v with
  | Some (String _ _) => true
  | Some EmptyString => false
  | None => false
  end.

(** [v || <empty string>] on a [string | null] value. *)
Definition or_empty (v : option string) : string :=
  match v with
  | Some (String c s) => String c s
  | Some EmptyString => EmptyString
  | None => EmptyString
  end.

Definition option_string_eqb (a b : option string) : bool :=
  match a, b with
  | Some x, Some y => String.eqb x y
  | None, None => true
  | _, _ => false
  end.

(** ** Shared playground state *)

Inductive Action : Type :=
| SET_API_KEY (payload : option string).

(** ** The form *)

(** [AuthFormSchema]'s inferred type. *)
Record AuthForm : Type := mkAuthForm { phoneNumber : string }.

Inductive ErrorType : Type :=
| too_small   (* the schema's [min(1)] issue *)
| manual.

Record FieldError : Type := mkFieldError {
  type : ErrorType;
  message : string
}.

(** [z.object({ phoneNumber: z.string().min(1, { message: ... }) })], as the
    resolver of the form: the error of the [phoneNumber] field, if any. *)
Definition AuthFormSchema (values : AuthForm) : option FieldError :=
  if Nat.ltb (String.length (phoneNumber values)) 1
  then Some {| type := too_small; message := "Phone number is required" |}
  else None.

(** The error [onSubmit] attaches to the field when the request fails. *)
Definition fetch_failed : FieldError :=
  {| type := manual; message := "Failed to fetch API key. Please try again." |}.

(** The error of the schema on an empty phone number. *)
Definition required : FieldError :=
  {| type := too_small; message := "Phone number is required" |}.

(** ** The network *)

Inductive Exn : Type :=
| Error (msg : string).

(** A response: its status and what [response.text()] settles to. *)
Record Response : Type := mkResponse {
  status : Z;
  body : Exn + string
}.

(** What the promise of [fetch] settles to. *)
Inductive FetchResult : Type :=
| Rejects (e : Exn)
| Resolves (response : Response).

(** ** Observable calls, in the order they are made *)

Inductive Call : Type :=
| CallFetch (url method : string) (headers : list (string * string))
| CallDispatch (a : Action)
| CallOnOpenChange (open : bool)
| CallOnAuthComplete
| CallConsoleError (msg : string) (e : Exn)
| CallPreventDefault
| CallStopPropagation.

Definition is_dispatch (c : Call) : bool :=
  match c with CallDispatch _ => true | _ => false end.

Definition is_fetch (c : Call) : bool :=
  match c with CallFetch _ _ _ => true | _ => false end.

Definition is_open_change (c : Call) : bool :=
  match c with CallOnOpenChange _ => true | _ => false end.

Definition is_auth_complete (c : Call) : bool :=
  match c with CallOnAuthComplete => true | _ => false end.

Definition count (p : Call -> bool) (l : list Call) : nat :=
  List.length (filter p l).

(** How a handler completes: normally, or by throwing. *)
Inductive Completion (A : Type) : Type :=
| Normal (a : A)
| Thrown (e : Exn).
Arguments Normal {A} a.
Arguments Thrown {A} e.

Section Playground.

(** The fields of the playground state other than the API key. *)
Context {Other : Type}.

Record PlaygroundState : Type := mkPlaygroundState {
  openaiAPIKey : option string;
  otherFields : Other
}.

(** Modelled from the spec: the reducer behind [dispatch] lives in
    [@/hooks/use-playground-state], which is not among the sources.  The spec
    gives the one action [{ type: "SET_API_KEY", payload: string | null }],
    which sets the API key to its payload ("setting payload to null clears
    authentication"). *)
Definition playgroundStateReducer (state : PlaygroundState) (a : Action)
  : PlaygroundState :=
  match a with
  | SET_API_KEY payload =>
      {| openaiAPIKey := payload; otherFields := otherFields state |}
  end.

(** [useForm]'s state for the one field. *)
Record FormState : Type := mkFormState {
  value : AuthForm;
  errors : option FieldError
}.

(** The [useState] cells of [AuthDialog], and the pending [setTimeout] of its
    first effect (the time at which it fires). *)
Record DialogState : Type := mkDialogState {
  isBlinking : bool;
  error404 : bool;
  timer : option nat
}.

Record World : Type := mkWorld {
  pgState : PlaygroundState;
  showAuthDialog : bool;
  dialog : DialogState;
  form : FormState;
  now : nat;             (* milliseconds *)
  calls : list Call
}.

(** ** The handler monad *)

Definition M (A : Type) : Type := World -> Completion A * World.

Definition ret {A} (a : A) : M A := fun w => (Normal a, w).

Definition bind {A B} (c : M A) (k : A -> M B) : M B :=
  fun w =>
    match c w with
    | (Normal a, w') => k a w'
    | (Thrown e, w') => (Thrown e, w')
    end.

Definition throw {A} (e : Exn) : M A := fun w => (Thrown e, w).

Definition try_catch {A} (c : M A) (handler : Exn -> M A) : M A :=
  fun w =>
    match c w with
    | (Normal a, w') => (Normal a, w')
    | (Thrown e, w') => handler e w'
    end.

Definition exec {A} (c : M A) (w : World) : World := snd (c w).

Local Notation "x <- c ;; k" := (bind c (fun x => k))
  (at level 61, c at next level, right associativity).
Local Notation "c ;; k" := (bind c (fun _ => k))
  (at level 61, right associativity).

Definition call (c : Call) : M unit :=
  fun w =>
    (Normal tt,
     {| pgState := pgState w; showAuthDialog := showAuthDialog w;
        dialog := dialog w; form := form w; now := now w;
        calls := calls w ++ [c] |}).

(** ** [usePlaygroundState] *)

Definition dispatch (a : Action) : M unit :=
  call (CallDispatch a) ;;
  fun w =>
    (Normal tt,
     {| pgState := playgroundStateReducer (pgState w) a;
        showAuthDialog := showAuthDialog w;
        dialog := dialog w; form := form w; now := now w;
        calls := calls w |}).

Definition setShowAuthDialog (open : bool) : M unit :=
  fun w =>
    (Normal tt,
     {| pgState := pgState w; showAuthDialog := open;
        dialog := dialog w; form := form w; now := now w;
        calls := calls w |}).

(** ** [useState] setters of [AuthDialog] *)

Definition with_dialog (f : DialogState -> DialogState) : M unit :=
  fun w =>
    (Normal tt,
     {| pgState := pgState w; showAuthDialog := showAuthDialog w;
        dialog := f (dialog w); form := form w; now := now w;
        calls := calls w |}).

Definition setIsBlinking (b : bool) : M unit :=
  with_dialog (fun d =>
    {| isBlinking := b; error404 := error404 d; timer := timer d |}).

Definition setError404 (b : bool) : M unit :=
  with_dialog (fun d =>
    {| isBlinking := isBlinking d; error404 := b; timer := timer d |}).

(** [setTimeout(() => setIsBlinking(false), ms)] and [clearTimeout]. *)
Definition setTimeout (ms : nat) : M unit :=
  fun w => with_dialog (fun d =>
    {| isBlinking := isBlinking d; error404 := error404 d;
       timer := Some (now w + ms) |}) w.

Definition clearTimeout : M unit :=
  with_dialog (fun d =>
    {| isBlinking := isBlinking d; error404 := error404 d; timer := None |}).

(** ** [useForm] *)

Definition with_form (f : FormState -> FormState) : M unit :=
  fun w =>
    (Normal tt,
     {| pgState := pgState w; showAuthDialog := showAuthDialog w;
        dialog := dialog w; form := f (form w); now := now w;
        calls := calls w |}).

(** [form.setValue("phoneNumber", v)]. *)
Definition form_setValue (v : string) : M unit :=
  with_form (fun f => {| value := {| phoneNumber := v |}; errors := errors f |}).

(** [form.setError("phoneNumber", e)]. *)
Definition form_setError (e : FieldError) : M unit :=
  with_form (fun f => {| value := value f; errors := Some e |}).

(** [form.handleSubmit(onValid)]: the resolver runs on the current values;
    the handler is called only when it reports no error. *)
Definition form_handleSubmit (onValid : AuthForm -> M unit) : M unit :=
  fun w =>
    let values := value (form w) in
    match AuthFormSchema values with
    | Some e => with_form (fun f => {| value := value f; errors := Some e |}) w
    | None =>
        (with_form (fun f => {| value := value f; errors := None |}) ;;
         onValid values) w
    end.

(** ** [fetch], [response.text()] and the console *)

Definition fetch (net : FetchResult) (url method : string)
  (headers : list (string * string)) : M Response :=
  call (CallFetch url method headers) ;;
  match net with
  | Rejects e => throw e
  | Resolves response => ret response
  end.

Definition text (response : Response) : M string :=
  match body response with
  | inl e => throw e
  | inr s => ret s
  end.

Definition console_error (msg : string) (e : Exn) : M unit :=
  call (CallConsoleError msg e).

(** ** [AuthDialog] *)

Section AuthDialog.

(** The props of the dialog. *)
Variable onOpenChange : bool -> M unit.
Variable onAuthComplete : M unit.

(** The first effect, on [[error404]]. *)
Definition blinkEffect : M unit :=
  fun w =>
    if error404 (dialog w)
    then (setIsBlinking true ;; setTimeout 1000) w
    else ret tt w.

(** Its cleanup, which the effect returns only when it ran with the flag
    set. *)
Definition blinkCleanup (prev : World) : M unit :=
  if error404 (dialog prev) then clearTimeout else ret tt.

(** The second effect, on [[pgState.openaiAPIKey, form]]. *)
Definition prefillEffect : M unit :=
  fun w => form_setValue (or_empty (openaiAPIKey (pgState w))) w.

(** The request of a submission. *)
Definition endpoint (values : AuthForm) : string :=
  ("http://localhost:5129/api/AppUser/GetAccessToken/" ++ phoneNumber values)%string.

Definition onSubmit (net : FetchResult) (values : AuthForm) : M unit :=
  try_catch
    (response <- fetch net (endpoint values) "GET" [("accept", "*/*")] ;;
     if (status response =? 404)%Z then
       setError404 true
     else
       apiKey <- text response ;;
       dispatch (SET_API_KEY (Some apiKey)) ;;
       onOpenChange false ;;
       onAuthComplete)
    (fun error =>
       console_error "Error fetching API key:" error ;;
       form_setError
         {| type := manual;
            message := "Failed to fetch API key. Please try again." |}).

End AuthDialog.

(** ** [Auth] *)

(** [Auth] declares an [isBlinking] cell of its own, which it neither reads
    nor sets; the one the dialog shows is [AuthDialog]'s. *)

Definition onLogout : M unit :=
  call CallPreventDefault ;;
  call CallStopPropagation ;;
  dispatch (SET_API_KEY None) ;;
  setShowAuthDialog true.

(** The props [Auth] gives its dialog.  Both callbacks are recorded among the
    calls. *)
Definition Auth_onOpenChange (open : bool) : M unit :=
  call (CallOnOpenChange open) ;;
  setShowAuthDialog open.

Definition Auth_onAuthComplete : M unit :=
  call CallOnAuthComplete ;;
  setShowAuthDialog false.

(** What [Auth] renders above the dialog: nothing, or the label with the
    masked key and the clear control. *)
Definition Auth_indicator (w : World) : option string :=
  if truthy (openaiAPIKey (pgState w))
  then Some (ellipsisMiddle (or_empty (openaiAPIKey (pgState w))) 4 4)
  else None.

Inductive BannerText : Type :=
| NotRegisteredYet
| DataStaysSafe.

(** What the dialog shows of its state. *)
Record DialogView : Type := mkDialogView {
  open : bool;
  fieldValue : string;
  fieldMessage : option string;
  bannerText : BannerText;
  bannerRed : bool;
  bannerBlinks : bool
}.

Definition AuthDialog_view (w : World) : DialogView :=
  {| open := showAuthDialog w;
     fieldValue := phoneNumber (value (form w));
     fieldMessage := option_map message (errors (form w));
     bannerText := if error404 (dialog w) then NotRegisteredYet else DataStaysSafe;
     bannerRed := error404 (dialog w);
     bannerBlinks := isBlinking (dialog w) |}.

(** ** Events *)

Inductive Event : Type :=
| Submit (net : FetchResult)   (* the form is submitted; [net] is what the
                                  remote call does, if one is made *)
| OpenChange (open : bool)     (* the dialog asks to be opened or closed *)
| Edit (v : string)            (* the phone-number input is edited *)
| ClickClear                   (* the clear control of the indicator *)
| Dispatched (a : Action)      (* another component dispatches *)
| Elapse (ms : nat).           (* time passes *)

(** Events that are not a submission, the clear control or a dispatch of
    another component. *)
Definition passive (e : Event) : bool :=
  match e with
  | OpenChange _ | Edit _ | Elapse _ => true
  | Submit _ | ClickClear | Dispatched _ => false
  end.

(** A submission that the remote call answers with status 404. *)
Definition is_not_found_submit (e : Event) : bool :=
  match e with
  | Submit (Resolves r) => (status r =? 404)%Z
  | _ => false
  end.

(** The form is rendered while the dialog is open, the clear control while
    the indicator is. *)
Definition enabled (w : World) (e : Event) : bool :=
  match e with
  | Submit _ | Edit _ => showAuthDialog w
  | ClickClear => truthy (openaiAPIKey (pgState w))
  | OpenChange _ | Dispatched _ | Elapse _ => true
  end.

(** Time passes; a timer that is due fires [setIsBlinking(false)]. *)
Definition elapse (ms : nat) : M unit :=
  fun w =>
    let w' := {| pgState := pgState w; showAuthDialog := showAuthDialog w;
                 dialog := dialog w; form := form w; now := now w + ms;
                 calls := calls w |} in
    match timer (dialog w) with
    | Some due =>
        if Nat.leb due (now w + ms)
        then (clearTimeout ;; setIsBlinking false) w'
        else ret tt w'
    | None => ret tt w'
    end.

Definition handler (e : Event) : M unit :=
  match e with
  | Submit net =>
      form_handleSubmit (onSubmit Auth_onOpenChange Auth_onAuthComplete net)
  | OpenChange open => Auth_onOpenChange open
  | Edit v => form_setValue v   (* the field's [onChange]; the value only *)
  | ClickClear => onLogout
  | Dispatched a => dispatch a
  | Elapse ms => elapse ms
  end.

(** The effects whose dependencies differ between the previous render
    [prev] and the current one. *)
Definition commitEffects (prev : World) : M unit :=
  fun cur =>
    ((if Bool.eqb (error404 (dialog prev)) (error404 (dialog cur))
      then ret tt
      else blinkCleanup prev ;; blinkEffect) ;;
     (if option_string_eqb (openaiAPIKey (pgState prev))
                           (openaiAPIKey (pgState cur))
      then ret tt
      else prefillEffect)) cur.

Definition step (w : World) (e : Event) : World :=
  if enabled w e then exec (handler e ;; commitEffects w) w else w.

Definition run (w : World) (es : list Event) : World :=
  fold_left step es w.

(** The components as first mounted: the form's default value, both flags
    of the dialog unset, and the effects of the first render. *)
Definition mount (state : PlaygroundState) (show : bool) (t : nat) : World :=
  exec (blinkEffect ;; prefillEffect)
    {| pgState := state; showAuthDialog := show;
       dialog := {| isBlinking := false; error404 := false; timer := None |};
       form := {| value := {| phoneNumber := EmptyString |}; errors := None |};
       now := t; calls := [] |}.

(** What holds of the blink in every world the components reach: it is on
    only under the error flag, and exactly while its timer is pending, which
    is due within the next 1000 ms. *)
Definition blink_inv (w : World) : Prop :=
  (isBlinking (dialog w) = true -> error404 (dialog w) = true) /\
  match timer (dialog w) with
  | Some due => isBlinking (dialog w) = true /\ now w < due <= now w + 1000
  | None => isBlinking (dialog w) = false
  end.

End Playground.

(** ** Sample worlds *)

Module Sample.

(** The dialog open on a fresh session. *)
Definition blank : @World unit :=
  mount {| openaiAPIKey := None; otherFields := tt |} true 0.

(** A phone number typed in. *)
Definition fresh : @World unit := step blank (Edit "09120674032").

Definition ok (s : string) : FetchResult :=
  Resolves {| status := 200; body := inr s |}.

Definition not_found : FetchResult :=
  Resolves {| status := 404; body := inr "Not Found" |}.

(** After a first "not found" answer whose blink is over. *)
Definition seen_not_found : @World unit :=
  run fresh [Submit not_found; Elapse 1000].

(** A session that holds a key. *)
Definition signed_in : @World unit :=
  mount {| openaiAPIKey := Some "abc123"; otherFields := tt |} false 0.

End Sample.

(** * Properties *)

Section Properties.

Context {Other : Type}.
Implicit Types w prev cur : @World Other.

(** ** Strings *)

Lemma substring_split (s : string) (n : nat) :
  s = (substring 0 n s ++ substring n (String.length s - n) s)%string.
Proof.
  revert n. induction s as [|c s IH]; intros [|n]; simpl; try reflexivity.
  - f_equal. clear IH. induction s; simpl; [reflexivity|]. f_equal. assumption.
  - f_equal. apply IH.
Qed.

Lemma substring_whole (s : string) (n : nat) :
  String.length s <= n -> substring 0 n s = s.
Proof.
  revert n. induction s as [|c s IH]; intros [|n] H; simpl in *;
    try reflexivity; try lia.
  f_equal. apply IH. lia.
Qed.

Lemma length_slice_start (s : string) (n : nat) :
  String.length (slice_start s n) = Nat.min n (String.length s).
Proof.
  unfold slice_start. revert n.
  induction s as [|c s IH]; intros [|n]; simpl; auto.
Qed.

Lemma slice_end_split (s : string) (n : nat) :
  s = (substring 0 (String.length s - n) s ++ slice_end s n)%string.
Proof.
  unfold slice_end.
  destruct (le_lt_dec n (String.length s)) as [Hle | Hlt].
  - rewrite (substring_split s (String.length s - n)) at 1.
    replace (String.length s - (String.length s - n)) with n by lia.
    reflexivity.
  - replace (String.length s - n) with 0 by lia. simpl.
    assert (E : substring 0 0 s = EmptyString) by (destruct s; reflexivity).
    rewrite E. simpl. symmetry. apply substring_whole. lia.
Qed.

Lemma length_append (a b : string) :
  String.length (a ++ b)%string = String.length a + String.length b.
Proof. induction a; simpl; auto. Qed.

Lemma length_slice_end (s : string) (n : nat) :
  String.length (slice_end s n) = Nat.min n (String.length s).
Proof.
  pose proof (f_equal String.length (slice_end_split s n)) as H.
  rewrite length_append in H.
  assert (L : String.length (substring 0 (String.length s - n) s)
              = Nat.min (String.length s - n) (String.length s))
    by apply length_slice_start.
  lia.
Qed.

Lemma truthy_spec (v : option string) :
  truthy v = true <-> exists k, v = Some k /\ k <> EmptyString.
Proof.
  split.
  - destruct v as [[|c s]|]; simpl; try discriminate.
    intros _. exists (String c s). split; [reflexivity | discriminate].
  - intros (k & -> & Hk). destruct k; [congruence | reflexivity].
Qed.

Lemma or_empty_Some (k : string) : or_empty (Some k) = k.
Proof. destruct k; reflexivity. Qed.

Lemma option_string_eqb_spec (a b : option string) :
  reflect (a = b) (option_string_eqb a b).
Proof.
  destruct a as [x|], b as [y|]; simpl; try (constructor; congruence).
  destruct (String.eqb_spec x y); constructor; congruence.
Qed.

(** ** Calls *)

Lemma count_app (p : Call -> bool) (l l' : list Call) :
  count p (l ++ l') = count p l + count p l'.
Proof. unfold count. rewrite filter_app, length_app. reflexivity. Qed.

(** ** The schema *)

Lemma AuthFormSchema_valid (values : AuthForm) :
  phoneNumber values <> EmptyString -> AuthFormSchema values = None.
Proof.
  destruct values as [[|c s]]; simpl; [congruence | reflexivity].
Qed.

Lemma AuthFormSchema_empty (values : AuthForm) :
  phoneNumber values = EmptyString ->
  AuthFormSchema values =
    Some {| type := too_small; message := "Phone number is required" |}.
Proof. destruct values as [pn]; simpl; intros ->; reflexivity. Qed.

(** ** Running the handlers *)

Local Ltac open_world w :=
  destruct w as [[? ?] ? [? ? ?] [[?] ?] ? ?]; simpl in *.

Local Ltac run_monad :=
  cbv [exec handler form_handleSubmit onSubmit onLogout try_catch bind ret
       throw fetch text console_error call dispatch setShowAuthDialog
       Auth_onOpenChange Auth_onAuthComplete with_dialog with_form
       setIsBlinking setError404 setTimeout clearTimeout form_setValue
       form_setError elapse commitEffects blinkEffect blinkCleanup
       prefillEffect playgroundStateReducer];
  cbn [pgState showAuthDialog dialog form now calls
       openaiAPIKey otherFields value errors isBlinking error404 timer
       status body fst snd];
  repeat rewrite <- app_assoc; cbn [app].

Lemma handleSubmit_valid (onValid : AuthForm -> M unit) w :
  phoneNumber (value (form w)) <> EmptyString ->
  form_handleSubmit onValid w =
  onValid (value (form w))
    {| pgState := pgState w; showAuthDialog := showAuthDialog w;
       dialog := dialog w;
       form := {| value := value (form w); errors := None |};
       now := now w; calls := calls w |}.
Proof.
  intros Hpn. unfold form_handleSubmit.
  rewrite (AuthFormSchema_valid _ Hpn). reflexivity.
Qed.

Lemma handleSubmit_invalid (onValid : AuthForm -> M unit) w :
  phoneNumber (value (form w)) = EmptyString ->
  form_handleSubmit onValid w =
  (Normal tt,
   {| pgState := pgState w; showAuthDialog := showAuthDialog w;
      dialog := dialog w;
      form := {| value := value (form w);
                 errors := Some {| type := too_small;
                                   message := "Phone number is required" |} |};
      now := now w; calls := calls w |}).
Proof.
  intros Hpn. unfold form_handleSubmit.
  rewrite (AuthFormSchema_empty _ Hpn). reflexivity.
Qed.

Lemma onSubmit_success_run (r : Response) (apiKey : string)
  (values : AuthForm) w :
  status r <> 404%Z ->
  body r = inr apiKey ->
  onSubmit Auth_onOpenChange Auth_onAuthComplete (Resolves r) values w =
  (Normal tt,
   {| pgState := {| openaiAPIKey := Some apiKey;
                    otherFields := otherFields (pgState w) |};
      showAuthDialog := false;
      dialog := dialog w; form := form w; now := now w;
      calls := calls w ++
        [CallFetch (endpoint values) "GET" [("accept", "*/*")];
         CallDispatch (SET_API_KEY (Some apiKey));
         CallOnOpenChange false;
         CallOnAuthComplete] |}).
Proof.
  intros Hst Hbody. apply Z.eqb_neq in Hst.
  destruct r as [st bd]. simpl in *. subst bd.
  run_monad. rewrite Hst. run_monad. reflexivity.
Qed.

Lemma onSubmit_not_found_run (r : Response) (values : AuthForm) w :
  status r = 404%Z ->
  onSubmit Auth_onOpenChange Auth_onAuthComplete (Resolves r) values w =
  (Normal tt,
   {| pgState := pgState w; showAuthDialog := showAuthDialog w;
      dialog := {| isBlinking := isBlinking (dialog w); error404 := true;
                   timer := timer (dialog w) |};
      form := form w; now := now w;
      calls := calls w ++
        [CallFetch (endpoint values) "GET" [("accept", "*/*")]] |}).
Proof.
  intros Hst. destruct r as [st bd]. simpl in *. subst st.
  run_monad. reflexivity.
Qed.

Lemma onSubmit_rejects_run (e : Exn) (values : AuthForm) w :
  onSubmit Auth_onOpenChange Auth_onAuthComplete (Rejects e) values w =
  (Normal tt,
   {| pgState := pgState w; showAuthDialog := showAuthDialog w;
      dialog := dialog w;
      form := {| value := value (form w); errors := Some fetch_failed |};
      now := now w;
      calls := calls w ++
        [CallFetch (endpoint values) "GET" [("accept", "*/*")];
         CallConsoleError "Error fetching API key:" e] |}).
Proof. run_monad. reflexivity. Qed.

(** A body that cannot be read takes the same path as a failed request. *)
Lemma onSubmit_text_rejects_run (r : Response) (e : Exn)
  (values : AuthForm) w :
  status r <> 404%Z ->
  body r = inl e ->
  onSubmit Auth_onOpenChange Auth_onAuthComplete (Resolves r) values w =
  (Normal tt,
   {| pgState := pgState w; showAuthDialog := showAuthDialog w;
      dialog := dialog w;
      form := {| value := value (form w); errors := Some fetch_failed |};
      now := now w;
      calls := calls w ++
        [CallFetch (endpoint values) "GET" [("accept", "*/*")];
         CallConsoleError "Error fetching API key:" e] |}).
Proof.
  intros Hst Hbody. apply Z.eqb_neq in Hst.
  destruct r as [st bd]. simpl in *. subst bd.
  run_monad. rewrite Hst. run_monad. reflexivity.
Qed.

Lemma onLogout_run w :
  onLogout w =
  (Normal tt,
   {| pgState := {| openaiAPIKey := None;
                    otherFields := otherFields (pgState w) |};
      showAuthDialog := true;
      dialog := dialog w; form := form w; now := now w;
      calls := calls w ++
        [CallPreventDefault; CallStopPropagation;
         CallDispatch (SET_API_KEY None)] |}).
Proof. run_monad. reflexivity. Qed.

(** No handler lets an exception escape. *)
Lemma handler_normal (e : Event) w :
  fst (handler e w) = Normal tt.
Proof.
  destruct e as [net | o | v | | a | ms]; try reflexivity.
  - unfold handler.
    destruct (string_dec (phoneNumber (value (form w))) EmptyString) as [E | E].
    + rewrite (handleSubmit_invalid _ _ E). reflexivity.
    + rewrite (handleSubmit_valid _ _ E).
      destruct net as [x | r].
      * rewrite onSubmit_rejects_run. reflexivity.
      * destruct (Z.eq_dec (status r) 404) as [S | S].
        -- rewrite (onSubmit_not_found_run _ _ _ S). reflexivity.
        -- destruct (body r) as [x | k] eqn:B.
           ++ rewrite (onSubmit_text_rejects_run _ _ _ _ S B). reflexivity.
           ++ rewrite (onSubmit_success_run _ _ _ _ S B). reflexivity.
  - unfold handler, elapse. destruct (timer (dialog w)) as [due|]; [|reflexivity].
    destruct (Nat.leb due (now w + ms)); reflexivity.
Qed.

Lemma step_enabled w (e : Event) :
  enabled w e = true ->
  step w e = exec (commitEffects w) (exec (handler e) w).
Proof.
  intros En. unfold step. rewrite En. unfold exec at 1, bind.
  pose proof (handler_normal e w) as N. unfold exec.
  destruct (handler e w) as [[[] | x] w']; simpl in *; [reflexivity | discriminate].
Qed.

(** ** The effects *)

Local Ltac open_worlds prev cur :=
  destruct prev as [[k0 o0] s0 [b0 e0 t0] [[p0] r0] n0 c0];
  destruct cur as [[k1 o1] s1 [b1 e1 t1] [[p1] r1] n1 c1];
  unfold exec, commitEffects, blinkCleanup, blinkEffect, prefillEffect;
  cbn in *.

Lemma commitEffects_frame prev cur :
  let w' := exec (commitEffects prev) cur in
  pgState w' = pgState cur /\
  showAuthDialog w' = showAuthDialog cur /\
  calls w' = calls cur /\
  now w' = now cur /\
  error404 (dialog w') = error404 (dialog cur) /\
  errors (form w') = errors (form cur).
Proof.
  open_worlds prev cur.
  destruct e0, e1, (option_string_eqb k0 k1); cbn; repeat split; reflexivity.
Qed.

Lemma commitEffects_dialog_same prev cur :
  error404 (dialog prev) = error404 (dialog cur) ->
  dialog (exec (commitEffects prev) cur) = dialog cur.
Proof.
  open_worlds prev cur. intros ->.
  destruct e1, (option_string_eqb k0 k1); reflexivity.
Qed.

Lemma commitEffects_blink prev cur :
  error404 (dialog prev) = false ->
  error404 (dialog cur) = true ->
  dialog (exec (commitEffects prev) cur) =
  {| isBlinking := true; error404 := true; timer := Some (now cur + 1000) |}.
Proof.
  open_worlds prev cur. intros -> ->.
  destruct (option_string_eqb k0 k1); reflexivity.
Qed.

Lemma commitEffects_form_same prev cur :
  openaiAPIKey (pgState prev) = openaiAPIKey (pgState cur) ->
  form (exec (commitEffects prev) cur) = form cur.
Proof.
  open_worlds prev cur. intros ->.
  destruct (option_string_eqb_spec k1 k1); [|congruence].
  destruct e0, e1; reflexivity.
Qed.

Lemma commitEffects_prefill prev cur :
  openaiAPIKey (pgState prev) <> openaiAPIKey (pgState cur) ->
  value (form (exec (commitEffects prev) cur)) =
  {| phoneNumber := or_empty (openaiAPIKey (pgState cur)) |}.
Proof.
  open_worlds prev cur. intros Hne.
  destruct (option_string_eqb_spec k0 k1); [congruence|].
  destruct e0, e1; reflexivity.
Qed.

(** ** Steps *)

Lemma exec_eq {A} (c : M A) w (a : A) w' : c w = (Normal a, w') -> exec c w = w'.
Proof. unfold exec. intros ->. reflexivity. Qed.

Lemma submit_valid_handler w (net : FetchResult) :
  phoneNumber (value (form w)) <> EmptyString ->
  handler (Submit net) w =
  onSubmit Auth_onOpenChange Auth_onAuthComplete net (value (form w))
    {| pgState := pgState w; showAuthDialog := showAuthDialog w;
       dialog := dialog w;
       form := {| value := value (form w); errors := None |};
       now := now w; calls := calls w |}.
Proof. intros Hpn. unfold handler. apply handleSubmit_valid, Hpn. Qed.

Lemma step_submit_success w (r : Response) (apiKey : string) :
  showAuthDialog w = true ->
  phoneNumber (value (form w)) <> EmptyString ->
  status r <> 404%Z ->
  body r = inr apiKey ->
  let w' := step w (Submit (Resolves r)) in
  pgState w' = {| openaiAPIKey := Some apiKey;
                  otherFields := otherFields (pgState w) |} /\
  showAuthDialog w' = false /\
  dialog w' = dialog w /\
  calls w' = calls w ++
    [CallFetch (endpoint (value (form w))) "GET" [("accept", "*/*")];
     CallDispatch (SET_API_KEY (Some apiKey));
     CallOnOpenChange false;
     CallOnAuthComplete].
Proof.
  intros Hopen Hpn Hst Hbody w'. subst w'.
  rewrite step_enabled by exact Hopen.
  pose proof (submit_valid_handler w (Resolves r) Hpn) as Hh.
  rewrite (onSubmit_success_run _ _ _ _ Hst Hbody) in Hh.
  rewrite (exec_eq _ _ _ _ Hh).
  match goal with
  | |- context [exec (commitEffects w) ?c] =>
      destruct (commitEffects_frame w c) as (F1 & F2 & F3 & _);
      pose proof (commitEffects_dialog_same w c eq_refl) as F4
  end.
  cbn [pgState showAuthDialog calls dialog] in *.
  rewrite F1, F2, F3, F4. repeat split; reflexivity.
Qed.

Lemma step_submit_not_found w (r : Response) :
  showAuthDialog w = true ->
  phoneNumber (value (form w)) <> EmptyString ->
  status r = 404%Z ->
  let w' := step w (Submit (Resolves r)) in
  pgState w' = pgState w /\
  showAuthDialog w' = true /\
  now w' = now w /\
  error404 (dialog w') = true /\
  calls w' = calls w ++
    [CallFetch (endpoint (value (form w))) "GET" [("accept", "*/*")]] /\
  (error404 (dialog w) = false ->
   dialog w' = {| isBlinking := true; error404 := true;
                  timer := Some (now w + 1000) |}) /\
  (error404 (dialog w) = true -> dialog w' = dialog w).
Proof.
  intros Hopen Hpn Hst w'. subst w'.
  rewrite step_enabled by exact Hopen.
  pose proof (submit_valid_handler w (Resolves r) Hpn) as Hh.
  rewrite (onSubmit_not_found_run _ _ _ Hst) in Hh.
  rewrite (exec_eq _ _ _ _ Hh).
  match goal with
  | |- context [exec (commitEffects w) ?c] =>
      destruct (commitEffects_frame w c) as (F1 & F2 & F3 & F4 & F5 & _);
      pose proof (commitEffects_blink w c) as B;
      pose proof (commitEffects_dialog_same w c) as D
  end.
  cbn [pgState showAuthDialog calls dialog now error404] in *.
  rewrite F1, F2, F3, F4, F5. repeat split; try assumption.
  - intros E. apply B; [exact E | reflexivity].
  - intros E. rewrite D by exact E.
    destruct (dialog w) as [b e t]. cbn in *. subst e. reflexivity.
Qed.

Lemma step_elapse w (ms : nat) :
  let w' := step w (Elapse ms) in
  pgState w' = pgState w /\
  showAuthDialog w' = showAuthDialog w /\
  form w' = form w /\
  calls w' = calls w /\
  now w' = now w + ms /\
  dialog w' =
    match timer (dialog w) with
    | Some due =>
        if Nat.leb due (now w + ms)
        then {| isBlinking := false; error404 := error404 (dialog w);
                timer := None |}
        else dialog w
    | None => dialog w
    end.
Proof.
  intros w'. subst w'. rewrite step_enabled by reflexivity.
  assert (H : exists d,
    exec (handler (Elapse ms)) w =
      {| pgState := pgState w; showAuthDialog := showAuthDialog w;
         dialog := d; form := form w; now := now w + ms; calls := calls w |}
    /\ error404 d = error404 (dialog w)
    /\ d = match timer (dialog w) with
           | Some due =>
               if Nat.leb due (now w + ms)
               then {| isBlinking := false; error404 := error404 (dialog w);
                       timer := None |}
               else dialog w
           | None => dialog w
           end).
  { unfold handler, elapse, exec.
    destruct (timer (dialog w)) as [due|];
      [destruct (Nat.leb due (now w + ms))|];
      eexists; (split; [reflexivity | split; reflexivity]). }
  destruct H as (d & -> & Hd & Hm).
  match goal with
  | |- context [exec (commitEffects w) ?c] =>
      destruct (commitEffects_frame w c) as (F1 & F2 & F3 & F4 & _);
      pose proof (commitEffects_dialog_same w c) as D;
      pose proof (commitEffects_form_same w c eq_refl) as G
  end.
  cbn [pgState showAuthDialog calls dialog now form] in *.
  rewrite F1, F2, F3, F4, G, D by (symmetry; exact Hd).
  repeat split; try reflexivity. exact Hm.
Qed.

Lemma commitEffects_same prev cur :
  error404 (dialog prev) = error404 (dialog cur) ->
  openaiAPIKey (pgState prev) = openaiAPIKey (pgState cur) ->
  exec (commitEffects prev) cur = cur.
Proof.
  open_worlds prev cur. intros -> ->.
  destruct (option_string_eqb_spec k1 k1); [|congruence].
  destruct e1; reflexivity.
Qed.

Lemma step_submit_rejects w (e : Exn) :
  showAuthDialog w = true ->
  phoneNumber (value (form w)) <> EmptyString ->
  step w (Submit (Rejects e)) =
  {| pgState := pgState w; showAuthDialog := true; dialog := dialog w;
     form := {| value := value (form w); errors := Some fetch_failed |};
     now := now w;
     calls := calls w ++
       [CallFetch (endpoint (value (form w))) "GET" [("accept", "*/*")];
        CallConsoleError "Error fetching API key:" e] |}.
Proof.
  intros Hopen Hpn. rewrite step_enabled by exact Hopen.
  pose proof (submit_valid_handler w (Rejects e) Hpn) as Hh.
  rewrite onSubmit_rejects_run in Hh.
  rewrite (exec_eq _ _ _ _ Hh).
  rewrite commitEffects_same by reflexivity.
  cbn. rewrite Hopen. reflexivity.
Qed.

Lemma step_submit_empty w (net : FetchResult) :
  showAuthDialog w = true ->
  phoneNumber (value (form w)) = EmptyString ->
  step w (Submit net) =
  {| pgState := pgState w; showAuthDialog := true; dialog := dialog w;
     form := {| value := value (form w); errors := Some required |};
     now := now w; calls := calls w |}.
Proof.
  intros Hopen Hpn. rewrite step_enabled by exact Hopen.
  unfold handler.
  rewrite (exec_eq _ _ _ _ (handleSubmit_invalid _ w Hpn)).
  rewrite commitEffects_same by reflexivity.
  rewrite Hopen. reflexivity.
Qed.

(** The error flag of the dialog is only ever set. *)
Lemma handler_error404 (e : Event) w :
  error404 (dialog w) = true ->
  error404 (dialog (exec (handler e) w)) = true.
Proof.
  intros H. destruct e as [net | o | v | | a | ms]; try exact H.
  - destruct (string_dec (phoneNumber (value (form w))) EmptyString) as [E | E].
    + unfold handler.
      rewrite (exec_eq _ _ _ _ (handleSubmit_invalid _ w E)). exact H.
    + pose proof (submit_valid_handler w net E) as Hh.
      destruct net as [x | r].
      * rewrite onSubmit_rejects_run in Hh.
        rewrite (exec_eq _ _ _ _ Hh). exact H.
      * destruct (Z.eq_dec (status r) 404) as [S | S].
        -- rewrite (onSubmit_not_found_run _ _ _ S) in Hh.
           rewrite (exec_eq _ _ _ _ Hh). reflexivity.
        -- destruct (body r) as [x | k] eqn:B.
           ++ rewrite (onSubmit_text_rejects_run _ _ _ _ S B) in Hh.
              rewrite (exec_eq _ _ _ _ Hh). exact H.
           ++ rewrite (onSubmit_success_run _ _ _ _ S B) in Hh.
              rewrite (exec_eq _ _ _ _ Hh). exact H.
  - unfold handler, elapse, exec.
    destruct (timer (dialog w)) as [due|];
      [destruct (Nat.leb due (now w + ms))|]; exact H.
Qed.

Lemma step_error404 w (e : Event) :
  error404 (dialog w) = true -> error404 (dialog (step w e)) = true.
Proof.
  intros H. unfold step. destruct (enabled w e) eqn:En; [|exact H].
  pose proof (step_enabled w e En) as St. unfold step in St.
  rewrite En in St. rewrite St.
  destruct (commitEffects_frame w (exec (handler e) w)) as (_ & _ & _ & _ & F & _).
  rewrite F. apply handler_error404, H.
Qed.

Lemma run_error404 w (es : list Event) :
  error404 (dialog w) = true -> error404 (dialog (run w es)) = true.
Proof.
  revert w. induction es as [|e es IH]; intros w H; [exact H|].
  apply IH, step_error404, H.
Qed.

Lemma step_passive w (e : Event) :
  passive e = true ->
  pgState (step w e) = pgState w /\
  count is_dispatch (calls (step w e)) = count is_dispatch (calls w).
Proof.
  intros P. unfold step. destruct (enabled w e) eqn:En; [|split; reflexivity].
  pose proof (step_enabled w e En) as St. unfold step in St.
  rewrite En in St. rewrite St.
  destruct (commitEffects_frame w (exec (handler e) w)) as (F1 & _ & F3 & _).
  rewrite F1, F3.
  destruct e as [net | o | v | | a | ms]; try discriminate.
  - run_monad. rewrite count_app. cbn. split; [reflexivity | lia].
  - split; reflexivity.
  - unfold handler, elapse, exec.
    destruct (timer (dialog w)) as [due|];
      [destruct (Nat.leb due (now w + ms))|]; split; reflexivity.
Qed.

(** ** The submission protocol *)

(** C1: a submitted non-empty phone number whose remote call answers with a
    status other than 404 (error statuses included) has the body of the
    response, read as text, dispatched as the API key; the shared key becomes
    that text, the dialog is closed through the open-change callback, and the
    completion callback is invoked exactly once. *)
Theorem submit_success_stores_key w (r : Response) (apiKey : string) :
  showAuthDialog w = true ->
  phoneNumber (value (form w)) <> EmptyString ->
  status r <> 404%Z ->
  body r = inr apiKey ->
  let w' := step w (Submit (Resolves r)) in
  calls w' = calls w ++
    [CallFetch (endpoint (value (form w))) "GET" [("accept", "*/*")];
     CallDispatch (SET_API_KEY (Some apiKey));
     CallOnOpenChange false;
     CallOnAuthComplete] /\
  openaiAPIKey (pgState w') = Some apiKey /\
  otherFields (pgState w') = otherFields (pgState w) /\
  showAuthDialog w' = false /\
  count is_auth_complete (calls w') = S (count is_auth_complete (calls w)) /\
  count is_dispatch (calls w') = S (count is_dispatch (calls w)).
Proof.
  intros Hopen Hpn Hst Hbody w'.
  destruct (step_submit_success w r apiKey Hopen Hpn Hst Hbody)
    as (Hpg & Hshow & _ & Hcalls).
  fold w' in Hpg, Hshow, Hcalls.
  rewrite Hpg, Hshow, Hcalls, !count_app. cbn.
  repeat split; try reflexivity; lia.
Qed.

(** C2 (amended): a submission whose remote call answers 404 sets the error
    flag, makes no dispatch and calls neither callback, so the dialog stays
    open and shared state is left as it was.  When the flag was not set
    before, the blink becomes active, stays active for less than 1000 ms and
    is off once 1000 ms have passed, the flag staying set; when the flag was
    already set, the submission leaves the blink as it is. *)
Theorem submit_not_found_sets_flag w (r : Response) :
  showAuthDialog w = true ->
  phoneNumber (value (form w)) <> EmptyString ->
  status r = 404%Z ->
  let w' := step w (Submit (Resolves r)) in
  error404 (dialog w') = true /\
  showAuthDialog w' = true /\
  pgState w' = pgState w /\
  calls w' = calls w ++
    [CallFetch (endpoint (value (form w))) "GET" [("accept", "*/*")]] /\
  (error404 (dialog w) = false ->
   isBlinking (dialog w') = true /\
   (forall ms, ms < 1000 ->
      isBlinking (dialog (step w' (Elapse ms))) = true) /\
   (forall ms, 1000 <= ms ->
      isBlinking (dialog (step w' (Elapse ms))) = false /\
      error404 (dialog (step w' (Elapse ms))) = true)) /\
  (error404 (dialog w) = true ->
   isBlinking (dialog w') = isBlinking (dialog w) /\
   timer (dialog w') = timer (dialog w)).
Proof.
  intros Hopen Hpn Hst w'.
  destruct (step_submit_not_found w r Hopen Hpn Hst)
    as (Hpg & Hshow & Hnow & Herr & Hcalls & Hfirst & Hagain).
  fold w' in Hpg, Hshow, Hnow, Herr, Hcalls, Hfirst, Hagain.
  repeat split; try assumption.
  - rewrite (Hfirst H). reflexivity.
  - intros ms Hms.
    destruct (step_elapse w' ms) as (_ & _ & _ & _ & _ & Hd).
    rewrite Hd, (Hfirst H), Hnow. cbn [timer].
    destruct (Nat.leb_spec (now w + 1000) (now w + ms)); [lia | reflexivity].
  - destruct (step_elapse w' ms) as (_ & _ & _ & _ & _ & Hd).
    rewrite Hd, (Hfirst H), Hnow. cbn [timer].
    destruct (Nat.leb_spec (now w + 1000) (now w + ms)); [reflexivity | lia].
  - apply step_error404, Herr.
  - rewrite (Hagain H). reflexivity.
  - rewrite (Hagain H). reflexivity.
Qed.

(** C3: when the fetch of a submission throws, the exception is caught, the
    manual error "Failed to fetch API key. Please try again." is attached to
    the phone-number field, nothing is dispatched, shared state is left as it
    was and the dialog stays open. *)
Theorem submit_fetch_throws w (e : Exn) :
  showAuthDialog w = true ->
  phoneNumber (value (form w)) <> EmptyString ->
  let w' := step w (Submit (Rejects e)) in
  errors (form w') =
    Some {| type := manual;
            message := "Failed to fetch API key. Please try again." |} /\
  fieldMessage (AuthDialog_view w') =
    Some "Failed to fetch API key. Please try again." /\
  pgState w' = pgState w /\
  showAuthDialog w' = true /\
  calls w' = calls w ++
    [CallFetch (endpoint (value (form w))) "GET" [("accept", "*/*")];
     CallConsoleError "Error fetching API key:" e] /\
  count is_dispatch (calls w') = count is_dispatch (calls w) /\
  count is_open_change (calls w') = count is_open_change (calls w) /\
  count is_auth_complete (calls w') = count is_auth_complete (calls w).
Proof.
  intros Hopen Hpn w'. subst w'.
  rewrite (step_submit_rejects w e Hopen Hpn).
  cbn [errors form pgState showAuthDialog calls AuthDialog_view fieldMessage
       option_map].
  rewrite !count_app. cbn.
  repeat split; try reflexivity; lia.
Qed.

(** C4: with an empty phone number the submission is blocked: whatever
    handler is bound to the form is not run, so no call is made and the
    remote endpoint is not reached, and the field shows "Phone number is
    required". *)
Theorem submit_empty_blocked w (net : FetchResult) :
  showAuthDialog w = true ->
  phoneNumber (value (form w)) = EmptyString ->
  let w' := step w (Submit net) in
  (forall onValid : AuthForm -> M unit,
     form_handleSubmit onValid w =
     form_setError
       {| type := too_small; message := "Phone number is required" |} w) /\
  calls w' = calls w /\
  count is_fetch (calls w') = count is_fetch (calls w) /\
  errors (form w') =
    Some {| type := too_small; message := "Phone number is required" |} /\
  fieldMessage (AuthDialog_view w') = Some "Phone number is required" /\
  pgState w' = pgState w /\
  dialog w' = dialog w /\
  showAuthDialog w' = true.
Proof.
  intros Hopen Hpn w'. subst w'.
  rewrite (step_submit_empty w net Hopen Hpn).
  split.
  - intros onValid. rewrite (handleSubmit_invalid _ w Hpn). reflexivity.
  - repeat split; reflexivity.
Qed.

(** C10: a non-404 response with an empty body has the empty string
    dispatched as the API key; the dialog closes and the completion callback
    fires all the same, and the indicator then renders nothing, as it does
    with no key at all. *)
Theorem submit_empty_body w (r : Response) :
  showAuthDialog w = true ->
  phoneNumber (value (form w)) <> EmptyString ->
  status r <> 404%Z ->
  body r = inr EmptyString ->
  let w' := step w (Submit (Resolves r)) in
  calls w' = calls w ++
    [CallFetch (endpoint (value (form w))) "GET" [("accept", "*/*")];
     CallDispatch (SET_API_KEY (Some EmptyString));
     CallOnOpenChange false;
     CallOnAuthComplete] /\
  openaiAPIKey (pgState w') = Some EmptyString /\
  showAuthDialog w' = false /\
  Auth_indicator w' = None /\
  (forall u : @World Other,
     openaiAPIKey (pgState u) = None -> Auth_indicator u = Auth_indicator w').
Proof.
  intros Hopen Hpn Hst Hbody w'.
  destruct (step_submit_success w r EmptyString Hopen Hpn Hst Hbody)
    as (Hpg & Hshow & _ & Hcalls).
  fold w' in Hpg, Hshow, Hcalls.
  assert (Hind : Auth_indicator w' = None)
    by (unfold Auth_indicator; rewrite Hpg; reflexivity).
  rewrite Hpg, Hshow, Hcalls, Hind.
  repeat split; try reflexivity.
  intros u Hu. unfold Auth_indicator. rewrite Hu. reflexivity.
Qed.

(** ** The error banner *)

(** C5 (amended): the error flag is never left: once it is set it stays set
    through every sequence of events, successful submissions and closing and
    reopening the dialog included, and the banner keeps its error text. *)
Theorem error404_persists w (es : list Event) :
  error404 (dialog w) = true ->
  error404 (dialog (run w es)) = true /\
  bannerText (AuthDialog_view (run w es)) = NotRegisteredYet.
Proof.
  intros H. pose proof (run_error404 w es H) as R.
  split; [exact R|]. unfold AuthDialog_view. cbn [bannerText].
  rewrite R. reflexivity.
Qed.

(** ** The prefill *)

(** C6 (amended): whenever an event changes the shared API key, the
    phone-number field is set to the new key when it is a string, and to the
    empty string when it is null. *)
Theorem key_change_prefills w (e : Event) :
  openaiAPIKey (pgState (step w e)) <> openaiAPIKey (pgState w) ->
  phoneNumber (value (form (step w e))) =
  match openaiAPIKey (pgState (step w e)) with
  | Some k => k
  | None => EmptyString
  end.
Proof.
  intros Hne. destruct (enabled w e) eqn:En.
  - rewrite (step_enabled w e En) in *.
    destruct (commitEffects_frame w (exec (handler e) w)) as (F1 & _).
    rewrite F1 in *.
    rewrite commitEffects_prefill by congruence.
    cbn [phoneNumber].
    destruct (openaiAPIKey (pgState (exec (handler e) w))) as [k|];
      [apply or_empty_Some | reflexivity].
  - unfold step in Hne. rewrite En in Hne. congruence.
Qed.

(** ** The status indicator *)

(** C7: the indicator renders the masked key if and only if the API key is a
    non-empty string.  What it renders is the first 4 characters of the key,
    an ellipsis and its last 4 characters (all of the key on either side when
    it has fewer than 4); with no key it renders nothing. *)
Theorem indicator_masks_key w :
  (Auth_indicator w <> None <->
   exists k, openaiAPIKey (pgState w) = Some k /\ k <> EmptyString) /\
  (forall k, openaiAPIKey (pgState w) = Some k -> k <> EmptyString ->
     Auth_indicator w =
       Some (slice_start k 4 ++ "..." ++ slice_end k 4)%string /\
     String.length (slice_start k 4) = Nat.min 4 (String.length k) /\
     String.length (slice_end k 4) = Nat.min 4 (String.length k) /\
     k = (slice_start k 4 ++ substring 4 (String.length k - 4) k)%string /\
     k = (substring 0 (String.length k - 4) k ++ slice_end k 4)%string) /\
  (openaiAPIKey (pgState w) = None -> Auth_indicator w = None).
Proof.
  unfold Auth_indicator. repeat split.
  - intros H. apply truthy_spec.
    destruct (truthy (openaiAPIKey (pgState w))); congruence.
  - intros H. apply truthy_spec in H. rewrite H. discriminate.
  - rewrite H, or_empty_Some. destruct k; [congruence | reflexivity].
  - apply length_slice_start.
  - apply length_slice_end.
  - apply substring_split.
  - apply slice_end_split.
  - intros ->. reflexivity.
Qed.

(** C8: the clear control dispatches [SET_API_KEY] with payload null, once,
    and sets the dialog-visible flag; the shared key becomes null and shared
    state changes by that one dispatch only. *)
Theorem onLogout_clears_key w :
  let w' := exec onLogout w in
  calls w' = calls w ++
    [CallPreventDefault; CallStopPropagation;
     CallDispatch (SET_API_KEY None)] /\
  count is_dispatch (calls w') = S (count is_dispatch (calls w)) /\
  pgState w' = playgroundStateReducer (pgState w) (SET_API_KEY None) /\
  openaiAPIKey (pgState w') = None /\
  otherFields (pgState w') = otherFields (pgState w) /\
  showAuthDialog w' = true /\
  (enabled w ClickClear = true ->
   pgState (step w ClickClear) = pgState w' /\
   showAuthDialog (step w ClickClear) = true /\
   calls (step w ClickClear) = calls w').
Proof.
  intros w'. subst w'. rewrite (exec_eq _ _ _ _ (onLogout_run w)).
  cbn [calls pgState showAuthDialog openaiAPIKey otherFields].
  rewrite count_app. cbn.
  repeat split; try reflexivity; try lia;
    rewrite (step_enabled w ClickClear H);
    match goal with
    | |- context [exec (commitEffects w) ?c] =>
        destruct (commitEffects_frame w c) as (F1 & F2 & F3 & _)
    end;
    unfold handler in *; rewrite (exec_eq _ _ _ _ (onLogout_run w)) in *;
    cbn [calls pgState showAuthDialog] in *; assumption.
Qed.

(** ** Opening and closing *)

(** C9: no sequence of open and close requests, field edits and waiting,
    without a submission, dispatches anything: shared state is the one the
    sequence started from. *)
Theorem open_close_keeps_shared_state w (es : list Event) :
  forallb passive es = true ->
  pgState (run w es) = pgState w /\
  count is_dispatch (calls (run w es)) = count is_dispatch (calls w).
Proof.
  revert w. induction es as [|e es IH]; intros w H; [split; reflexivity|].
  cbn in H. apply andb_true_iff in H. destruct H as (He & Hes).
  destruct (step_passive w e He) as (P1 & P2).
  destruct (IH (step w e) Hes) as (I1 & I2).
  cbn [run fold_left] in *. unfold run in *.
  rewrite I1, I2, P1, P2. split; reflexivity.
Qed.

(** * Further properties *)

(** ** More on steps *)

Local Ltac submit_cases w net :=
  destruct (string_dec (phoneNumber (value (form w))) EmptyString) as [E | E];
  [| destruct net as [x | r];
     [| destruct (Z.eq_dec (status r) 404) as [S | S];
        [| destruct (body r) as [x | k] eqn:B]]].

Lemma step_frame w (e : Event) :
  enabled w e = true ->
  pgState (step w e) = pgState (exec (handler e) w) /\
  showAuthDialog (step w e) = showAuthDialog (exec (handler e) w) /\
  calls (step w e) = calls (exec (handler e) w) /\
  now (step w e) = now (exec (handler e) w) /\
  error404 (dialog (step w e)) = error404 (dialog (exec (handler e) w)) /\
  errors (form (step w e)) = errors (form (exec (handler e) w)).
Proof.
  intros En. rewrite (step_enabled w e En). apply commitEffects_frame.
Qed.

Lemma step_submit_unreadable w (r : Response) (e : Exn) :
  showAuthDialog w = true ->
  phoneNumber (value (form w)) <> EmptyString ->
  status r <> 404%Z ->
  body r = inl e ->
  step w (Submit (Resolves r)) =
  {| pgState := pgState w; showAuthDialog := true; dialog := dialog w;
     form := {| value := value (form w); errors := Some fetch_failed |};
     now := now w;
     calls := calls w ++
       [CallFetch (endpoint (value (form w))) "GET" [("accept", "*/*")];
        CallConsoleError "Error fetching API key:" e] |}.
Proof.
  intros Hopen Hpn Hst Hbody. rewrite step_enabled by exact Hopen.
  pose proof (submit_valid_handler w (Resolves r) Hpn) as Hh.
  rewrite (onSubmit_text_rejects_run _ _ _ _ Hst Hbody) in Hh.
  rewrite (exec_eq _ _ _ _ Hh).
  rewrite commitEffects_same by reflexivity.
  cbn. rewrite Hopen. reflexivity.
Qed.

Lemma step_open_change w (b : bool) :
  step w (OpenChange b) =
  {| pgState := pgState w; showAuthDialog := b; dialog := dialog w;
     form := form w; now := now w;
     calls := calls w ++ [CallOnOpenChange b] |}.
Proof.
  rewrite step_enabled by reflexivity.
  assert (Hh : handler (OpenChange b) w =
    (Normal tt,
     {| pgState := pgState w; showAuthDialog := b; dialog := dialog w;
        form := form w; now := now w;
        calls := calls w ++ [CallOnOpenChange b] |})) by reflexivity.
  rewrite (exec_eq _ _ _ _ Hh).
  apply commitEffects_same; reflexivity.
Qed.

Lemma step_key_change_form w (e : Event) :
  openaiAPIKey (pgState (step w e)) <> openaiAPIKey (pgState w) ->
  value (form (step w e)) =
  {| phoneNumber := or_empty (openaiAPIKey (pgState (step w e))) |}.
Proof.
  intros Hne. destruct (enabled w e) eqn:En.
  - rewrite (step_enabled w e En) in *.
    destruct (commitEffects_frame w (exec (handler e) w)) as (F1 & _).
    rewrite F1 in *. apply commitEffects_prefill. congruence.
  - unfold step in Hne. rewrite En in Hne. congruence.
Qed.

(** What a handler does to the cells of the dialog. *)
Lemma handler_dialog (e : Event) w :
  (dialog (exec (handler e) w) = dialog w /\
   now (exec (handler e) w) = now w) \/
  (is_not_found_submit e = true /\
   now (exec (handler e) w) = now w /\
   dialog (exec (handler e) w) =
     {| isBlinking := isBlinking (dialog w); error404 := true;
        timer := timer (dialog w) |}) \/
  (exists ms, e = Elapse ms).
Proof.
  destruct e as [net | o | v | | a | ms];
    try (left; split; reflexivity).
  - submit_cases w net.
    + left. unfold handler.
      rewrite (exec_eq _ _ _ _ (handleSubmit_invalid _ w E)).
      split; reflexivity.
    + left. pose proof (submit_valid_handler w (Rejects x) E) as Hh.
      rewrite onSubmit_rejects_run in Hh.
      rewrite (exec_eq _ _ _ _ Hh). split; reflexivity.
    + right; left. pose proof (submit_valid_handler w (Resolves r) E) as Hh.
      rewrite (onSubmit_not_found_run _ _ _ S) in Hh.
      rewrite (exec_eq _ _ _ _ Hh). cbn [is_not_found_submit].
      rewrite S. repeat split; reflexivity.
    + left. pose proof (submit_valid_handler w (Resolves r) E) as Hh.
      rewrite (onSubmit_text_rejects_run _ _ _ _ S B) in Hh.
      rewrite (exec_eq _ _ _ _ Hh). split; reflexivity.
    + left. pose proof (submit_valid_handler w (Resolves r) E) as Hh.
      rewrite (onSubmit_success_run _ _ _ _ S B) in Hh.
      rewrite (exec_eq _ _ _ _ Hh). split; reflexivity.
  - right; right. exists ms. reflexivity.
Qed.

Lemma blink_inv_ext w w' :
  dialog w' = dialog w -> now w' = now w -> blink_inv w -> blink_inv w'.
Proof. unfold blink_inv. intros -> ->. exact (fun H => H). Qed.

Lemma step_blink_inv w (e : Event) : blink_inv w -> blink_inv (step w e).
Proof.
  intros I. destruct (enabled w e) eqn:En;
    [| unfold step; rewrite En; exact I].
  destruct (step_frame w e En) as (_ & _ & _ & Fnow & _).
  destruct (handler_dialog e w) as [(Hd & Hn) | [(_ & Hn & Hd) | (ms & ->)]].
  - apply (blink_inv_ext w); [| congruence | exact I].
    rewrite (step_enabled w e En), commitEffects_dialog_same; congruence.
  - destruct (error404 (dialog w)) eqn:E4.
    + apply (blink_inv_ext w); [| congruence | exact I].
      rewrite (step_enabled w e En), commitEffects_dialog_same;
        rewrite Hd; [| cbn; congruence].
      destruct (dialog w) as [b f t]. cbn in *. subst f. reflexivity.
    + unfold blink_inv. rewrite Fnow, Hn.
      rewrite (step_enabled w e En), (commitEffects_blink w _ E4);
        [| rewrite Hd; reflexivity].
      rewrite Hn. cbn. repeat split; lia.
  - destruct (step_elapse w ms) as (_ & _ & _ & _ & Hn & Hd).
    unfold blink_inv in *. rewrite Hn, Hd. destruct I as (I1 & I2).
    destruct (timer (dialog w)) as [due|] eqn:T.
    + destruct (Nat.leb_spec due (now w + ms)).
      * cbn. split; [discriminate | reflexivity].
      * rewrite T. split; [exact I1 | split; [apply I2 | lia]].
    + rewrite T. split; assumption.
Qed.

Lemma mount_blink_inv (state : PlaygroundState) (show : bool) (t : nat) :
  blink_inv (@mount Other state show t).
Proof. split; [discriminate | reflexivity]. Qed.

Lemma run_blink_inv w (es : list Event) : blink_inv w -> blink_inv (run w es).
Proof.
  revert w. induction es as [|e es IH]; intros w I; [exact I|].
  apply IH, step_blink_inv, I.
Qed.

Lemma step_error404_origin w (e : Event) :
  error404 (dialog (step w e)) = true ->
  error404 (dialog w) = true \/ is_not_found_submit e = true.
Proof.
  destruct (enabled w e) eqn:En;
    [| unfold step; rewrite En; intros H; left; exact H].
  destruct (step_frame w e En) as (_ & _ & _ & _ & F & _). rewrite F.
  destruct (handler_dialog e w) as [(Hd & _) | [(Hs & _) | (ms & ->)]].
  - rewrite Hd. intros H; left; exact H.
  - intros _; right; exact Hs.
  - intros H; left. revert H. unfold handler, elapse, exec.
    destruct (timer (dialog w)) as [due|];
      [destruct (Nat.leb due (now w + ms))|]; exact (fun H => H).
Qed.

Lemma step_submit_fetch w (net : FetchResult) :
  showAuthDialog w = true ->
  phoneNumber (value (form w)) <> EmptyString ->
  exists rest,
    calls (step w (Submit net)) =
      calls w ++
      CallFetch (endpoint (value (form w))) "GET" [("accept", "*/*")] :: rest
    /\ count is_fetch rest = 0.
Proof.
  intros Hopen Hpn. submit_cases w net; [contradiction | | | |].
  - rewrite (step_submit_rejects w x Hopen Hpn).
    eexists; split; reflexivity.
  - destruct (step_submit_not_found w r Hopen Hpn S) as (_ & _ & _ & _ & C & _).
    rewrite C. eexists; split; reflexivity.
  - rewrite (step_submit_unreadable w r x Hopen Hpn S B).
    eexists; split; reflexivity.
  - destruct (step_submit_success w r k Hopen Hpn S B) as (_ & _ & _ & C).
    rewrite C. eexists; split; reflexivity.
Qed.

Lemma run_error404_origin w (es : list Event) :
  error404 (dialog (run w es)) = true ->
  error404 (dialog w) = true \/ existsb is_not_found_submit es = true.
Proof.
  revert w. induction es as [|e es IH]; intros w H; [left; exact H|].
  cbn [existsb]. destruct (IH (step w e) H) as [H1 | H1].
  - destruct (step_error404_origin w e H1) as [H2 | H2];
      [left; exact H2 | right; rewrite H2; reflexivity].
  - right. rewrite H1. apply orb_true_r.
Qed.

Lemma truthy_or_empty (v : option string) :
  truthy v = true <-> or_empty v <> EmptyString.
Proof.
  destruct v as [[|c s]|]; cbn; split; congruence.
Qed.

Lemma append_inj_l (a b c : string) :
  (a ++ b)%string = (a ++ c)%string -> b = c.
Proof.
  induction a as [|x a IH]; cbn; intros H; [exact H|].
  injection H as H. apply IH, H.
Qed.

(** ** The outcomes of a submission *)

(** X1: a submission closes the dialog exactly when it stores a key, that
    is when the phone number is not empty and the remote call answers with a
    status other than 404 and a body that can be read. *)
Theorem submit_closes_iff_stored w (net : FetchResult) :
  showAuthDialog w = true ->
  showAuthDialog (step w (Submit net)) = false <->
  phoneNumber (value (form w)) <> EmptyString /\
  exists r k, net = Resolves r /\ status r <> 404%Z /\ body r = inr k.
Proof.
  intros Hopen. submit_cases w net.
  - rewrite (step_submit_empty w net Hopen E). cbn. split;
      [discriminate | intros (N & _); contradiction].
  - rewrite (step_submit_rejects w x Hopen E). cbn. split;
      [discriminate | intros (_ & r & k & N & _); discriminate].
  - destruct (step_submit_not_found w r Hopen E S) as (_ & Hs & _).
    rewrite Hs. split; [discriminate|].
    intros (_ & r' & k & N & S' & _). injection N as <-. contradiction.
  - rewrite (step_submit_unreadable w r x Hopen E S B). cbn. split;
      [discriminate|].
    intros (_ & r' & k & N & _ & B'). injection N as <-. congruence.
  - destruct (step_submit_success w r k Hopen E S B) as (_ & Hs & _).
    rewrite Hs. split; [|reflexivity].
    intros _. split; [exact E|]. exists r, k. repeat split; assumption.
Qed.

(** X2: a submission changes the shared API key only on the success path,
    and then to the text of the response; it never sets the key to null. *)
Theorem submit_changes_key_only_on_success w (net : FetchResult) :
  openaiAPIKey (pgState (step w (Submit net))) <> openaiAPIKey (pgState w) ->
  showAuthDialog w = true /\
  phoneNumber (value (form w)) <> EmptyString /\
  exists r k,
    net = Resolves r /\ status r <> 404%Z /\ body r = inr k /\
    openaiAPIKey (pgState (step w (Submit net))) = Some k.
Proof.
  intros Hne. destruct (showAuthDialog w) eqn:Hopen;
    [| unfold step in Hne; cbn [enabled] in Hne; rewrite Hopen in Hne;
       congruence].
  split; [reflexivity|]. submit_cases w net.
  - exfalso. rewrite (step_submit_empty w net Hopen E) in Hne.
    apply Hne. reflexivity.
  - exfalso. rewrite (step_submit_rejects w x Hopen E) in Hne.
    apply Hne. reflexivity.
  - exfalso. destruct (step_submit_not_found w r Hopen E S) as (Hp & _).
    apply Hne. rewrite Hp. reflexivity.
  - exfalso. rewrite (step_submit_unreadable w r x Hopen E S B) in Hne.
    apply Hne. reflexivity.
  - destruct (step_submit_success w r k Hopen E S B) as (Hp & _).
    split; [exact E|]. exists r, k. rewrite Hp. repeat split; assumption.
Qed.

(** X3: a submission with a non-empty phone number issues one request,
    whatever the network then does: a GET of the endpoint followed by the
    phone number as typed, with the header accept: */*; no second request
    follows. *)
Theorem submit_one_fetch w (net : FetchResult) :
  showAuthDialog w = true ->
  phoneNumber (value (form w)) <> EmptyString ->
  (exists rest,
     calls (step w (Submit net)) =
       calls w ++
       CallFetch
         ("http://localhost:5129/api/AppUser/GetAccessToken/"
          ++ phoneNumber (value (form w)))%string
         "GET" [("accept", "*/*")] :: rest) /\
  count is_fetch (calls (step w (Submit net))) = S (count is_fetch (calls w)).
Proof.
  intros Hopen Hpn.
  destruct (step_submit_fetch w net Hopen Hpn) as (rest & C & R).
  split; [exists rest; exact C|].
  rewrite C, count_app.
  change (count is_fetch (CallFetch (endpoint (value (form w))) "GET"
                            [("accept", "*/*")] :: rest))
    with (S (count is_fetch rest)).
  lia.
Qed.

(** X4: a response other than 404 whose body cannot be read is handled as a
    failed request: the error is logged, the field gets the manual message,
    nothing is dispatched, the dialog stays open, and the banner and the
    typed phone number are left as they were. *)
Theorem submit_unreadable_body w (r : Response) (e : Exn) :
  showAuthDialog w = true ->
  phoneNumber (value (form w)) <> EmptyString ->
  status r <> 404%Z ->
  body r = inl e ->
  let w' := step w (Submit (Resolves r)) in
  calls w' = calls w ++
    [CallFetch (endpoint (value (form w))) "GET" [("accept", "*/*")];
     CallConsoleError "Error fetching API key:" e] /\
  errors (form w') =
    Some {| type := manual;
            message := "Failed to fetch API key. Please try again." |} /\
  value (form w') = value (form w) /\
  pgState w' = pgState w /\
  showAuthDialog w' = true /\
  dialog w' = dialog w.
Proof.
  intros Hopen Hpn Hst Hbody w'. subst w'.
  rewrite (step_submit_unreadable w r e Hopen Hpn Hst Hbody).
  repeat split; reflexivity.
Qed.

(** X5: on a 404 answer the body is not read: two 404 responses, whatever
    their bodies, readable or not, lead to the same world. *)
Theorem not_found_ignores_body w (r r' : Response) :
  status r = 404%Z ->
  status r' = 404%Z ->
  step w (Submit (Resolves r)) = step w (Submit (Resolves r')).
Proof.
  intros S S'.
  assert (Hh : handler (Submit (Resolves r)) w
               = handler (Submit (Resolves r')) w).
  { destruct (string_dec (phoneNumber (value (form w))) EmptyString) as [E|E].
    - unfold handler. rewrite !(handleSubmit_invalid _ w E). reflexivity.
    - rewrite !(submit_valid_handler w _ E).
      rewrite (onSubmit_not_found_run _ _ _ S),
              (onSubmit_not_found_run _ _ _ S').
      reflexivity. }
  unfold step, exec, bind. cbn [enabled]. rewrite Hh. reflexivity.
Qed.

(** ** [onSubmit] under arbitrary props *)

(** X6: [onSubmit] never throws: whatever the network does and whatever the
    two callbacks do, it completes normally. *)
Theorem onSubmit_never_throws (oc : bool -> @M Other unit) (ac : @M Other unit)
  (net : FetchResult) (values : AuthForm) w :
  fst (onSubmit oc ac net values w) = Normal tt.
Proof.
  unfold onSubmit, try_catch.
  match goal with
  | |- fst (match ?c with _ => _ end) = _ => destruct c as [[[] | e] w']
  end; reflexivity.
Qed.

(** X7: the open-change callback is called after the dispatch and inside
    the try block: when it throws, the key is already stored, the completion
    callback is not called, and the exception is reported on the field as a
    failed fetch. *)
Theorem onSubmit_callback_throws (oc : bool -> @M Other unit)
  (ac : @M Other unit) (r : Response) (k : string) (values : AuthForm)
  w (e : Exn) w2 :
  status r <> 404%Z ->
  body r = inr k ->
  oc false
    {| pgState := {| openaiAPIKey := Some k;
                     otherFields := otherFields (pgState w) |};
       showAuthDialog := showAuthDialog w;
       dialog := dialog w; form := form w; now := now w;
       calls := calls w ++
         [CallFetch (endpoint values) "GET" [("accept", "*/*")];
          CallDispatch (SET_API_KEY (Some k))] |}
  = (Thrown e, w2) ->
  onSubmit oc ac (Resolves r) values w =
  (Normal tt,
   {| pgState := pgState w2; showAuthDialog := showAuthDialog w2;
      dialog := dialog w2;
      form := {| value := value (form w2);
                 errors := Some {| type := manual;
                   message := "Failed to fetch API key. Please try again." |} |};
      now := now w2;
      calls := calls w2 ++ [CallConsoleError "Error fetching API key:" e] |}).
Proof.
  intros Hst Hbody Hoc. apply Z.eqb_neq in Hst.
  destruct r as [st bd]. cbn in Hst, Hbody. subst bd.
  run_monad. rewrite Hst. run_monad. rewrite Hoc. reflexivity.
Qed.

(** X8: on every path but the success path the callbacks are not used: when
    the request fails, the answer is 404 or the body cannot be read, the
    outcome of [onSubmit] is the same under any props. *)
Theorem onSubmit_props_unused (oc oc' : bool -> @M Other unit)
  (ac ac' : @M Other unit) (net : FetchResult) (values : AuthForm) w :
  (forall r, net = Resolves r ->
     status r = 404%Z \/ exists e, body r = inl e) ->
  onSubmit oc ac net values w = onSubmit oc' ac' net values w.
Proof.
  intros H. destruct net as [x | [st bd]]; [reflexivity|].
  destruct (H _ eq_refl) as [S | (e & B)]; cbn in *; subst.
  - reflexivity.
  - run_monad. destruct (st =? 404)%Z; reflexivity.
Qed.

(** ** The blink and the banner in reachable worlds *)

(** X9: in every world reached from the mounted components, the blink is on
    only while the banner shows the error, it is on exactly while its timer is
    pending, and that timer is due within the next 1000 ms. *)
Theorem reachable_blink (state : PlaygroundState) (show : bool) (t : nat)
  (es : list Event) :
  let w := run (@mount Other state show t) es in
  (bannerBlinks (AuthDialog_view w) = true ->
   bannerRed (AuthDialog_view w) = true /\
   bannerText (AuthDialog_view w) = NotRegisteredYet) /\
  (isBlinking (dialog w) = true <-> exists due, timer (dialog w) = Some due) /\
  (forall due, timer (dialog w) = Some due -> now w < due <= now w + 1000).
Proof.
  intros w.
  destruct (run_blink_inv _ es (mount_blink_inv state show t)) as (I1 & I2).
  fold w in I1, I2. unfold AuthDialog_view. cbn [bannerBlinks bannerRed bannerText].
  destruct (timer (dialog w)) as [due|].
  - destruct I2 as (B & R). repeat split.
    + apply I1, H.
    + rewrite (I1 H). reflexivity.
    + intros _. exists due. reflexivity.
    + intros _. exact B.
    + injection H as <-. apply R.
    + injection H as <-. apply R.
  - repeat split; try discriminate.
    + apply I1, H.
    + rewrite (I1 H). reflexivity.
    + congruence.
    + intros (due & D). discriminate.
Qed.

(** X10: in every world reached from the mounted components, the blink is
    off once 1000 ms have passed. *)
Theorem blink_ends_within_a_second (state : PlaygroundState) (show : bool)
  (t : nat) (es : list Event) (ms : nat) :
  1000 <= ms ->
  isBlinking
    (dialog (step (run (@mount Other state show t) es) (Elapse ms))) = false.
Proof.
  intros Hms.
  destruct (run_blink_inv _ es (mount_blink_inv state show t)) as (_ & I2).
  destruct (step_elapse (run (mount state show t) es) ms)
    as (_ & _ & _ & _ & _ & D).
  rewrite D.
  destruct (timer (dialog (run (mount state show t) es))) as [due|];
    [| exact I2].
  destruct (Nat.leb_spec due (now (run (mount state show t) es) + ms));
    [reflexivity | lia].
Qed.

(** X11: the banner shows the error only after a 404 answer: if the error
    flag is set in a world reached from the mounted components, one of the
    events was a submission answered with status 404. *)
Theorem banner_needs_not_found (state : PlaygroundState) (show : bool)
  (t : nat) (es : list Event) :
  error404 (dialog (run (@mount Other state show t) es)) = true ->
  existsb is_not_found_submit es = true.
Proof.
  intros H. destruct (run_error404_origin _ es H) as [H0 | H0];
    [discriminate | exact H0].
Qed.

(** ** How the two components compose *)

(** X12: signing in and then activating the clear control leaves no key:
    the dialog is open again, the phone-number field is empty and the
    indicator is gone. *)
Theorem sign_in_then_clear w (r : Response) (k : string) :
  showAuthDialog w = true ->
  phoneNumber (value (form w)) <> EmptyString ->
  status r <> 404%Z ->
  body r = inr k ->
  k <> EmptyString ->
  let w2 := run w [Submit (Resolves r); ClickClear] in
  openaiAPIKey (pgState w2) = None /\
  showAuthDialog w2 = true /\
  phoneNumber (value (form w2)) = EmptyString /\
  Auth_indicator w2 = None /\
  count is_dispatch (calls w2) = 2 + count is_dispatch (calls w).
Proof.
  intros Hopen Hpn Hst Hbody Hk w2. subst w2. cbn [run fold_left].
  destruct (step_submit_success w r k Hopen Hpn Hst Hbody)
    as (Hpg & _ & _ & Hcalls).
  set (w1 := step w (Submit (Resolves r))) in *.
  assert (En : enabled w1 ClickClear = true).
  { cbn [enabled]. rewrite Hpg. cbn. destruct k; [congruence | reflexivity]. }
  destruct (step_frame w1 ClickClear En) as (F1 & F2 & F3 & _).
  unfold handler in F1, F2, F3.
  rewrite (exec_eq _ _ _ _ (onLogout_run w1)) in F1, F2, F3.
  cbn [pgState showAuthDialog calls] in F1, F2, F3.
  assert (Hkey : openaiAPIKey (pgState (step w1 ClickClear)) = None)
    by (rewrite F1; reflexivity).
  assert (Hne : openaiAPIKey (pgState (step w1 ClickClear))
                <> openaiAPIKey (pgState w1))
    by (rewrite Hkey, Hpg; discriminate).
  pose proof (step_key_change_form w1 ClickClear Hne) as Hform.
  repeat split.
  - exact Hkey.
  - exact F2.
  - rewrite Hform, Hkey. reflexivity.
  - unfold Auth_indicator. rewrite Hkey. reflexivity.
  - rewrite F3, Hcalls, !count_app. cbn. lia.
Qed.

(** X13: after a sign-in that changed the key, the phone-number field holds
    the key, so a submission made when the dialog is next opened asks the
    endpoint for the key in place of a phone number. *)
Theorem key_sent_as_phone_number w (r : Response) (k : string)
  (net : FetchResult) :
  showAuthDialog w = true ->
  phoneNumber (value (form w)) <> EmptyString ->
  status r <> 404%Z ->
  body r = inr k ->
  k <> EmptyString ->
  openaiAPIKey (pgState w) <> Some k ->
  let w2 := run w [Submit (Resolves r); OpenChange true] in
  phoneNumber (value (form w2)) = k /\
  exists rest,
    calls (step w2 (Submit net)) =
      calls w2 ++
      CallFetch
        ("http://localhost:5129/api/AppUser/GetAccessToken/" ++ k)%string
        "GET" [("accept", "*/*")] :: rest.
Proof.
  intros Hopen Hpn Hst Hbody Hk Hold w2. subst w2. cbn [run fold_left].
  destruct (step_submit_success w r k Hopen Hpn Hst Hbody) as (Hpg & _).
  set (w1 := step w (Submit (Resolves r))) in *.
  assert (Hne : openaiAPIKey (pgState w1) <> openaiAPIKey (pgState w))
    by (rewrite Hpg; cbn; congruence).
  pose proof (step_key_change_form w (Submit (Resolves r)) Hne) as Hform.
  fold w1 in Hform. rewrite Hpg in Hform. cbn [openaiAPIKey] in Hform.
  rewrite or_empty_Some in Hform.
  rewrite (step_open_change w1 true).
  set (w2 := {| pgState := pgState w1; showAuthDialog := true;
                dialog := dialog w1; form := form w1; now := now w1;
                calls := calls w1 ++ [CallOnOpenChange true] |}).
  assert (Hval : phoneNumber (value (form w2)) = k)
    by (cbn; rewrite Hform; reflexivity).
  split; [exact Hval|].
  assert (Hpn2 : phoneNumber (value (form w2)) <> EmptyString)
    by (rewrite Hval; exact Hk).
  destruct (step_submit_fetch w2 net eq_refl Hpn2) as (rest & C & _).
  exists rest. rewrite C. unfold endpoint. rewrite Hval. reflexivity.
Qed.

(** X14: after any event that changes the key, the indicator is shown
    exactly when the phone-number field has been prefilled with a non-empty
    value. *)
Theorem indicator_iff_prefilled w (e : Event) :
  openaiAPIKey (pgState (step w e)) <> openaiAPIKey (pgState w) ->
  Auth_indicator (step w e) <> None <->
  phoneNumber (value (form (step w e))) <> EmptyString.
Proof.
  intros Hne. rewrite (step_key_change_form w e Hne). cbn [phoneNumber].
  rewrite <- truthy_or_empty. unfold Auth_indicator.
  destruct (truthy (openaiAPIKey (pgState (step w e)))); split; congruence.
Qed.

(** X15: the phone number goes into the request path as typed, with no
    encoding or normalisation: different phone numbers give different
    endpoints, and the number is read back from the end of the endpoint. *)
Theorem endpoint_injective (values values' : AuthForm) :
  (endpoint values = endpoint values' -> values = values') /\
  slice_end (endpoint values) (String.length (phoneNumber values))
  = phoneNumber values.
Proof.
  split.
  - unfold endpoint. intros H. apply append_inj_l in H.
    destruct values, values'. cbn in H. congruence.
  - unfold endpoint, slice_end. rewrite length_append.
    set (p := "http://localhost:5129/api/AppUser/GetAccessToken/").
    replace (String.length p + String.length (phoneNumber values)
             - String.length (phoneNumber values))
      with (String.length p) by lia.
    generalize (phoneNumber values). intros s0. subst p. cbn.
    induction s0 as [|c s0 IH]; cbn; [reflexivity|]. f_equal. exact IH.
Qed.

End Properties.

(** * The properties at sample worlds *)

Example indicator_of_a_key :
  Auth_indicator
    (step Sample.fresh (Submit (Sample.ok "sk-1234567890abcd")))
  = Some "sk-1...abcd".
Proof. reflexivity. Qed.

(** An error status other than 404 is no different: its body is stored. *)
Example error_body_becomes_key :
  openaiAPIKey (pgState
    (step Sample.fresh
       (Submit (Resolves {| status := 500;
                            body := inr "Internal Server Error" |}))))
  = Some "Internal Server Error".
Proof. reflexivity. Qed.

Lemma submit_success_stores_key_witness :
  let w := Sample.fresh in
  let w' := step w (Submit (Sample.ok "abc123")) in
  (showAuthDialog w = true /\
   phoneNumber (value (form w)) <> EmptyString) /\
  openaiAPIKey (pgState w') = Some "abc123" /\
  showAuthDialog w' = false /\
  count is_auth_complete (calls w') = 1.
Proof.
  assert (Hopen : showAuthDialog Sample.fresh = true) by reflexivity.
  assert (Hpn : phoneNumber (value (form Sample.fresh)) <> EmptyString)
    by (vm_compute; discriminate).
  destruct (submit_success_stores_key Sample.fresh
              {| status := 200; body := inr "abc123" |} "abc123"
              Hopen Hpn ltac:(discriminate) eq_refl)
    as (_ & Hkey & _ & Hshow & Hdone & _).
  repeat split; assumption.
Defined.

(** A second "not found" answer, after the blink of the first is over, does
    not blink again. *)
Lemma second_not_found_counterexample :
  let w := Sample.seen_not_found in
  let w' := step w (Submit Sample.not_found) in
  (showAuthDialog w = true /\
   phoneNumber (value (form w)) <> EmptyString) /\
  error404 (dialog w') = true /\
  isBlinking (dialog w') = false /\
  (forall ms, isBlinking (dialog (step w' (Elapse ms))) = false).
Proof.
  repeat split; try reflexivity.
  vm_compute. discriminate.
Qed.

Lemma submit_not_found_sets_flag_witness :
  let w := Sample.fresh in
  let w' := step w (Submit Sample.not_found) in
  (showAuthDialog w = true /\
   phoneNumber (value (form w)) <> EmptyString /\
   error404 (dialog w) = false) /\
  error404 (dialog w') = true /\
  showAuthDialog w' = true /\
  isBlinking (dialog w') = true /\
  isBlinking (dialog (step w' (Elapse 999))) = true /\
  isBlinking (dialog (step w' (Elapse 1000))) = false /\
  error404 (dialog (step w' (Elapse 1000))) = true.
Proof.
  assert (Hopen : showAuthDialog Sample.fresh = true) by reflexivity.
  assert (Hpn : phoneNumber (value (form Sample.fresh)) <> EmptyString)
    by (vm_compute; discriminate).
  destruct (submit_not_found_sets_flag Sample.fresh
              {| status := 404; body := inr "Not Found" |}
              Hopen Hpn eq_refl)
    as (Herr & Hshow & _ & _ & Hfirst & _).
  destruct (Hfirst eq_refl) as (Hon & Hbefore & Hafter).
  destruct (Hafter 1000 ltac:(lia)) as (Hoff & Hstill).
  pose proof (Hbefore 999 ltac:(lia)) as Hmid.
  repeat split; assumption.
Defined.

Lemma submit_fetch_throws_witness :
  let w := Sample.fresh in
  let w' := step w (Submit (Rejects (Error "Failed to fetch"))) in
  (showAuthDialog w = true /\
   phoneNumber (value (form w)) <> EmptyString) /\
  fieldMessage (AuthDialog_view w') =
    Some "Failed to fetch API key. Please try again." /\
  pgState w' = pgState w /\
  showAuthDialog w' = true.
Proof.
  assert (Hopen : showAuthDialog Sample.fresh = true) by reflexivity.
  assert (Hpn : phoneNumber (value (form Sample.fresh)) <> EmptyString)
    by (vm_compute; discriminate).
  destruct (submit_fetch_throws Sample.fresh (Error "Failed to fetch")
              Hopen Hpn)
    as (_ & Hmsg & Hpg & Hshow & _).
  repeat split; assumption.
Defined.

Lemma submit_empty_blocked_witness :
  let w := Sample.blank in
  let w' := step w (Submit (Sample.ok "abc123")) in
  (showAuthDialog w = true /\
   phoneNumber (value (form w)) = EmptyString) /\
  calls w' = [] /\
  fieldMessage (AuthDialog_view w') = Some "Phone number is required" /\
  pgState w' = pgState w.
Proof.
  assert (Hopen : showAuthDialog Sample.blank = true) by reflexivity.
  assert (Hpn : phoneNumber (value (form Sample.blank)) = EmptyString)
    by reflexivity.
  destruct (submit_empty_blocked Sample.blank (Sample.ok "abc123") Hopen Hpn)
    as (_ & Hcalls & _ & _ & Hmsg & Hpg & _).
  repeat split; assumption.
Defined.

(** Neither a successful submission nor closing and reopening the dialog
    unsets the error flag; no event does. *)
Lemma error404_reset_counterexample :
  let w := step Sample.fresh (Submit Sample.not_found) in
  error404 (dialog w) = true /\
  error404 (dialog (step w (Submit (Sample.ok "abc123")))) = true /\
  error404 (dialog (run w [OpenChange false; OpenChange true])) = true /\
  ~ (exists (u : @World unit) (e : Event),
       error404 (dialog u) = true /\ error404 (dialog (step u e)) = false).
Proof.
  repeat split; try reflexivity.
  intros (u & e & Hset & Hunset).
  rewrite (step_error404 u e Hset) in Hunset. discriminate.
Qed.

Lemma error404_persists_witness :
  let w := step Sample.fresh (Submit Sample.not_found) in
  let es := [Submit (Sample.ok "abc123"); OpenChange true;
             OpenChange false; OpenChange true] in
  error404 (dialog w) = true /\
  error404 (dialog (run w es)) = true /\
  bannerText (AuthDialog_view (run w es)) = NotRegisteredYet.
Proof.
  split; [reflexivity|].
  apply (error404_persists (step Sample.fresh (Submit Sample.not_found))).
  reflexivity.
Defined.

(** Clearing the key sets the field to the empty string, which is not the
    null key. *)
Lemma prefill_null_key_counterexample :
  let w := Sample.signed_in in
  let w' := step w ClickClear in
  openaiAPIKey (pgState w) = Some "abc123" /\
  openaiAPIKey (pgState w') = None /\
  phoneNumber (value (form w')) = EmptyString /\
  Some (phoneNumber (value (form w'))) <> openaiAPIKey (pgState w').
Proof.
  repeat split; try reflexivity. vm_compute. discriminate.
Qed.

Lemma key_change_prefills_witness :
  let w := Sample.fresh in
  let w' := step w (Submit (Sample.ok "abc123")) in
  openaiAPIKey (pgState w') <> openaiAPIKey (pgState w) /\
  phoneNumber (value (form w')) = "abc123".
Proof.
  assert (Hne : openaiAPIKey (pgState
                  (step Sample.fresh (Submit (Sample.ok "abc123"))))
                <> openaiAPIKey (pgState Sample.fresh))
    by (vm_compute; discriminate).
  split; [exact Hne|].
  exact (key_change_prefills Sample.fresh (Submit (Sample.ok "abc123")) Hne).
Defined.

Lemma open_close_keeps_shared_state_witness :
  let w := Sample.signed_in in
  let es := [OpenChange true; Edit "0912"; Elapse 5; OpenChange false] in
  forallb passive es = true /\
  pgState (run w es) = pgState w /\
  count is_dispatch (calls (run w es)) = count is_dispatch (calls w).
Proof.
  split; [reflexivity|].
  apply (open_close_keeps_shared_state Sample.signed_in). reflexivity.
Defined.

Lemma submit_empty_body_witness :
  let w := Sample.fresh in
  let w' := step w (Submit (Sample.ok EmptyString)) in
  (showAuthDialog w = true /\
   phoneNumber (value (form w)) <> EmptyString) /\
  openaiAPIKey (pgState w') = Some EmptyString /\
  showAuthDialog w' = false /\
  Auth_indicator w' = None.
Proof.
  assert (Hopen : showAuthDialog Sample.fresh = true) by reflexivity.
  assert (Hpn : phoneNumber (value (form Sample.fresh)) <> EmptyString)
    by (vm_compute; discriminate).
  destruct (submit_empty_body Sample.fresh
              {| status := 200; body := inr EmptyString |}
              Hopen Hpn ltac:(discriminate) eq_refl)
    as (_ & Hkey & Hshow & Hind & _).
  repeat split; assumption.
Defined.

(** * The further properties at sample worlds *)

Lemma submit_closes_iff_stored_witness :
  let w := Sample.fresh in
  showAuthDialog w = true /\
  showAuthDialog (step w (Submit (Sample.ok "abc123"))) = false /\
  showAuthDialog (step w (Submit Sample.not_found)) <> false.
Proof.
  assert (Hopen : showAuthDialog Sample.fresh = true) by reflexivity.
  split; [exact Hopen|]. split.
  - apply (submit_closes_iff_stored Sample.fresh (Sample.ok "abc123") Hopen).
    split; [vm_compute; discriminate|].
    exists {| status := 200; body := inr "abc123" |}, "abc123".
    repeat split. discriminate.
  - intros H.
    apply (submit_closes_iff_stored Sample.fresh Sample.not_found Hopen) in H.
    destruct H as (_ & r & k & N & S & _).
    injection N as <-. apply S. reflexivity.
Defined.

Lemma submit_changes_key_only_on_success_witness :
  let w := Sample.fresh in
  let net := Sample.ok "abc123" in
  openaiAPIKey (pgState (step w (Submit net))) <> openaiAPIKey (pgState w) /\
  exists r k,
    net = Resolves r /\ status r <> 404%Z /\ body r = inr k /\
    openaiAPIKey (pgState (step w (Submit net))) = Some k.
Proof.
  assert (Hne : openaiAPIKey (pgState
                  (step Sample.fresh (Submit (Sample.ok "abc123"))))
                <> openaiAPIKey (pgState Sample.fresh))
    by (vm_compute; discriminate).
  split; [exact Hne|].
  exact (proj2 (proj2 (submit_changes_key_only_on_success
                         Sample.fresh (Sample.ok "abc123") Hne))).
Defined.

Lemma submit_one_fetch_witness :
  let w := Sample.fresh in
  (showAuthDialog w = true /\
   phoneNumber (value (form w)) <> EmptyString) /\
  count is_fetch
    (calls (step w (Submit (Rejects (Error "Failed to fetch"))))) = 1 /\
  count is_fetch (calls (step w (Submit Sample.not_found))) = 1 /\
  count is_fetch (calls (step w (Submit (Sample.ok "abc123")))) = 1.
Proof.
  assert (Hopen : showAuthDialog Sample.fresh = true) by reflexivity.
  assert (Hpn : phoneNumber (value (form Sample.fresh)) <> EmptyString)
    by (vm_compute; discriminate).
  split; [split; assumption|].
  split; [| split].
  - exact (proj2 (submit_one_fetch Sample.fresh
                    (Rejects (Error "Failed to fetch")) Hopen Hpn)).
  - exact (proj2 (submit_one_fetch Sample.fresh Sample.not_found Hopen Hpn)).
  - exact (proj2 (submit_one_fetch Sample.fresh (Sample.ok "abc123")
                    Hopen Hpn)).
Defined.

Lemma submit_unreadable_body_witness :
  let w := Sample.fresh in
  let r := {| status := 200; body := inl (Error "body stream") |} in
  let w' := step w (Submit (Resolves r)) in
  (showAuthDialog w = true /\
   phoneNumber (value (form w)) <> EmptyString) /\
  fieldMessage (AuthDialog_view w') =
    Some "Failed to fetch API key. Please try again." /\
  pgState w' = pgState w /\
  showAuthDialog w' = true.
Proof.
  assert (Hopen : showAuthDialog Sample.fresh = true) by reflexivity.
  assert (Hpn : phoneNumber (value (form Sample.fresh)) <> EmptyString)
    by (vm_compute; discriminate).
  destruct (submit_unreadable_body Sample.fresh
              {| status := 200; body := inl (Error "body stream") |}
              (Error "body stream") Hopen Hpn ltac:(discriminate) eq_refl)
    as (_ & Herr & _ & Hpg & Hshow & _).
  split; [split; assumption|].
  split; [| split; assumption].
  unfold AuthDialog_view. cbn [fieldMessage]. rewrite Herr. reflexivity.
Defined.

Lemma not_found_ignores_body_witness :
  step Sample.fresh
    (Submit (Resolves {| status := 404; body := inr "Not Found" |}))
  = step Sample.fresh
      (Submit (Resolves {| status := 404;
                           body := inl (Error "body stream") |})).
Proof.
  apply (not_found_ignores_body Sample.fresh); reflexivity.
Defined.

Lemma onSubmit_callback_throws_witness :
  let oc : bool -> @M unit unit := fun _ => throw (Error "closed") in
  let w' :=
    snd (onSubmit oc (ret tt) (Sample.ok "abc123")
           (value (form Sample.fresh)) Sample.fresh) in
  openaiAPIKey (pgState w') = Some "abc123" /\
  errors (form w') = Some fetch_failed /\
  showAuthDialog w' = true.
Proof.
  cbv zeta. unfold Sample.ok.
  rewrite (onSubmit_callback_throws
             (fun _ => throw (Error "closed")) (ret tt)
             {| status := 200; body := inr "abc123" |} "abc123"
             (value (form Sample.fresh)) Sample.fresh (Error "closed") _
             ltac:(discriminate) eq_refl eq_refl).
  repeat split.
Defined.

Lemma onSubmit_props_unused_witness :
  onSubmit Auth_onOpenChange Auth_onAuthComplete Sample.not_found
    (value (form Sample.fresh)) Sample.fresh
  = onSubmit (fun _ => throw (Error "closed")) (throw (Error "done"))
      Sample.not_found (value (form Sample.fresh)) Sample.fresh.
Proof.
  apply onSubmit_props_unused.
  intros r H. injection H as <-. left. reflexivity.
Defined.

Lemma blink_ends_within_a_second_witness :
  let w := run Sample.blank [Edit "09120674032"; Submit Sample.not_found] in
  isBlinking (dialog w) = true /\
  isBlinking (dialog (step w (Elapse 1000))) = false.
Proof.
  split; [reflexivity|].
  apply (blink_ends_within_a_second
           {| openaiAPIKey := None; otherFields := tt |} true 0
           [Edit "09120674032"; Submit Sample.not_found] 1000).
  lia.
Defined.

Lemma banner_needs_not_found_witness :
  let es := [Edit "09120674032"; Submit Sample.not_found; OpenChange false] in
  error404 (dialog (run Sample.blank es)) = true /\
  existsb is_not_found_submit es = true.
Proof.
  assert (H : error404 (dialog (run Sample.blank
                [Edit "09120674032"; Submit Sample.not_found;
                 OpenChange false])) = true) by reflexivity.
  split; [exact H|].
  exact (banner_needs_not_found
           {| openaiAPIKey := None; otherFields := tt |} true 0 _ H).
Defined.

Lemma sign_in_then_clear_witness :
  let w := Sample.fresh in
  let w2 := run w [Submit (Sample.ok "abc123"); ClickClear] in
  (showAuthDialog w = true /\
   phoneNumber (value (form w)) <> EmptyString) /\
  openaiAPIKey (pgState w2) = None /\
  showAuthDialog w2 = true /\
  phoneNumber (value (form w2)) = EmptyString /\
  Auth_indicator w2 = None.
Proof.
  assert (Hopen : showAuthDialog Sample.fresh = true) by reflexivity.
  assert (Hpn : phoneNumber (value (form Sample.fresh)) <> EmptyString)
    by (vm_compute; discriminate).
  destruct (sign_in_then_clear Sample.fresh
              {| status := 200; body := inr "abc123" |} "abc123"
              Hopen Hpn ltac:(discriminate) eq_refl ltac:(discriminate))
    as (Hkey & Hshow & Hfield & Hind & _).
  repeat split; assumption.
Defined.

Lemma key_sent_as_phone_number_witness :
  let w := Sample.fresh in
  let w2 := run w [Submit (Sample.ok "abc123"); OpenChange true] in
  (showAuthDialog w = true /\
   phoneNumber (value (form w)) <> EmptyString /\
   openaiAPIKey (pgState w) <> Some "abc123") /\
  phoneNumber (value (form w2)) = "abc123" /\
  exists rest,
    calls (step w2 (Submit Sample.not_found)) =
      calls w2 ++
      CallFetch "http://localhost:5129/api/AppUser/GetAccessToken/abc123"
        "GET" [("accept", "*/*")] :: rest.
Proof.
  assert (Hopen : showAuthDialog Sample.fresh = true) by reflexivity.
  assert (Hpn : phoneNumber (value (form Sample.fresh)) <> EmptyString)
    by (vm_compute; discriminate).
  assert (Hold : openaiAPIKey (pgState Sample.fresh) <> Some "abc123")
    by (vm_compute; discriminate).
  split; [repeat split; assumption|].
  exact (key_sent_as_phone_number Sample.fresh
           {| status := 200; body := inr "abc123" |} "abc123"
           Sample.not_found Hopen Hpn ltac:(discriminate) eq_refl
           ltac:(discriminate) Hold).
Defined.

Lemma indicator_iff_prefilled_witness :
  let w := Sample.signed_in in
  let w' := step w ClickClear in
  openaiAPIKey (pgState w') <> openaiAPIKey (pgState w) /\
  (Auth_indicator w' <> None <->
   phoneNumber (value (form w')) <> EmptyString).
Proof.
  assert (Hne : openaiAPIKey (pgState (step Sample.signed_in ClickClear))
                <> openaiAPIKey (pgState Sample.signed_in))
    by (vm_compute; discriminate).
  split; [exact Hne|].
  exact (indicator_iff_prefilled Sample.signed_in ClickClear Hne).
Defined.
